(** * The Apache Livy hook

    A shallow embedding of [airflow/providers/apache/livy/hooks/livy.py]:
    the batch states, the static validators, the request-body builder, the
    method wrapper around the HTTP hook, the batch operations and the
    paginated log dump.

    Python values are an inductive type, exceptions are an error result, the
    hook's mutable attributes are a record threaded through a small
    state-and-error monad, and the HTTP transport of the parent class is a
    parameter of the development. *)

From Stdlib Require Import ZArith List String Ascii Bool Lia.
From Stdlib Require Import DecimalString SpecFloat.
Import ListNotations.

Set Warnings "-register-all".
Local Open Scope string_scope.
Local Open Scope Z_scope.

(** ** Python values *)

(** The values the hook handles: arguments of the validators and JSON read
    from responses. A [float] is an IEEE 754 value in the representation of
    [SpecFloat]; a [str] is a sequence of code points below 256; a [dict] is
    an association list in insertion order with [str] keys. *)
Inductive pyval : Type :=
| PNone
| PBool (b : bool)
| PInt (z : Z)
| PFloat (f : spec_float)
| PStr (s : string)
| PList (l : list pyval)
| PTuple (l : list pyval)
| PDict (d : list (string * pyval)).

Definition pydict : Type := list (string * pyval).

(** Exceptions by class, with their message. *)
Inductive exn : Type :=
| TypeError (msg : string)
| ValueError (msg : string)
| OverflowError (msg : string)
| KeyError (msg : string)
| JSONDecodeError (msg : string)
| ConnectionError (msg : string)
| AttributeError (msg : string)
| AirflowException (msg : string).

Inductive result (A : Type) : Type :=
| Ok (a : A)
| Raise (e : exn).
Arguments Ok {A} a.
Arguments Raise {A} e.

(** [bool(v)]: the truth value of [v]. *)
Definition truthy (v : pyval) : bool :=
  match v with
  | PNone => false
  | PBool b => b
  | PInt z => negb (z =? 0)
  | PFloat f => match f with S754_zero _ => false | _ => true end
  | PStr s => negb (String.eqb s "")
  | PList l | PTuple l => match l with [] => false | _ => true end
  | PDict d => match d with [] => false | _ => true end
  end.

(** [isinstance(v, str)], [isinstance(v, int)] (a [bool] is an [int]) and
    [isinstance(v, float)]. *)
Definition isinstance_str (v : pyval) : bool :=
  match v with PStr _ => true | _ => false end.
Definition isinstance_int (v : pyval) : bool :=
  match v with PInt _ | PBool _ => true | _ => false end.
Definition isinstance_float (v : pyval) : bool :=
  match v with PFloat _ => true | _ => false end.

(** ** Characters *)

Definition code (c : ascii) : nat := nat_of_ascii c.

Definition in_range (lo hi : nat) (c : ascii) : bool :=
  (lo <=? code c)%nat && (code c <=? hi)%nat.

(** A decimal digit: below 256 these are "0" to "9" only. *)
Definition is_digit (c : ascii) : bool := in_range 48 57 c.

Definition digit_val (c : ascii) : Z := Z.of_nat (code c - 48).

(** White space that [int()] strips from both ends of a [str]. *)
Definition is_int_space (c : ascii) : bool :=
  in_range 9 13 c || (code c =? 32)%nat || (code c =? 133)%nat
  || (code c =? 160)%nat.

(** Lower-casing of a code point below 256, as [re.IGNORECASE] compares. *)
Definition to_lower (c : ascii) : ascii :=
  if in_range 65 90 c
     || (in_range 192 222 c && negb (code c =? 215)%nat)
  then ascii_of_nat (code c + 32) else c.

(** ** [int()] *)

(** The digits of an integer literal: digit groups separated by single
    underscores. [prev] tells whether the previous character was a digit. *)
Fixpoint int_digits (acc : Z) (prev : bool) (cs : list ascii) : option Z :=
  match cs with
  | [] => if prev then Some acc else None
  | c :: cs' =>
      if is_digit c then int_digits (10 * acc + digit_val c) true cs'
      else if Ascii.eqb c "_" then
             if prev then int_digits acc false cs' else None
           else None
  end.

Fixpoint drop_while {A} (p : A -> bool) (l : list A) : list A :=
  match l with
  | [] => []
  | x :: l' => if p x then drop_while p l' else l
  end.

Definition strip_int_space (cs : list ascii) : list ascii :=
  rev (drop_while is_int_space (rev (drop_while is_int_space cs))).

Definition count_digits (cs : list ascii) : Z :=
  Z.of_nat (List.length (filter is_digit cs)).

(** What the hook takes from the interpreter it runs on:
    - [int_max_str_digits], the limit on the number of digits of a decimal
      string converted by [int()] ([sys.get_int_max_str_digits()]; 0 is no
      limit);
    - [runtime_str], [str(v)] where the hook does not depend on its text
      (floats and containers). *)
Class PyRuntime : Type := {
  int_max_str_digits : Z;
  runtime_str : pyval -> string
}.

Section Builtins.
Context `{PyRuntime}.

(** [int(s)] of a [str], base 10. *)
Definition int_of_str (s : string) : option Z :=
  let cs := strip_int_space (list_ascii_of_string s) in
  let '(neg, ds) :=
    match cs with
    | c :: cs' =>
        if Ascii.eqb c "-" then (true, cs')
        else if Ascii.eqb c "+" then (false, cs')
             else (false, cs)
    | [] => (false, cs)
    end in
  if (0 <? int_max_str_digits) && (int_max_str_digits <? count_digits ds)
  then None
  else match int_digits 0 false ds with
       | Some z => Some (if neg then - z else z)
       | None => None
       end.

(** [int(f)] of a [float]: truncation towards zero. *)
Definition int_of_float (f : spec_float) : result Z :=
  match f with
  | S754_zero _ => Ok 0
  | S754_infinity _ =>
      Raise (OverflowError "cannot convert float infinity to integer")
  | S754_nan => Raise (ValueError "cannot convert float NaN to integer")
  | S754_finite s m e =>
      let q := Z.shiftl (Z.pos m) e in Ok (if s then - q else q)
  end.

(** [int(v)]. The text of the interpreter's own messages is abridged. *)
Definition py_int (v : pyval) : result Z :=
  match v with
  | PInt z => Ok z
  | PBool b => Ok (if b then 1 else 0)
  | PFloat f => int_of_float f
  | PStr s =>
      match int_of_str s with
      | Some z => Ok z
      | None => Raise (ValueError "invalid literal for int() with base 10")
      end
  | _ => Raise (TypeError "int() argument must be a string, a bytes-like object or a real number")
  end.

(** [str(v)]. *)
Definition py_str (v : pyval) : string :=
  match v with
  | PStr s => s
  | PInt z => NilZero.string_of_int (Z.to_int z)
  | PBool true => "True"
  | PBool false => "False"
  | PNone => "None"
  | _ => runtime_str v
  end.

End Builtins.

(** ** Regular expressions, as [re.match] runs them *)

(** The fragment of the pattern syntax the hook uses. *)
Inductive regex : Type :=
| Bol                          (* ^ *)
| Eol                          (* $ *)
| Digit                        (* \d *)
| Chr (c : ascii)              (* a literal character *)
| Cls (cs : list ascii)        (* [...] *)
| Seq (r1 r2 : regex)
| Plus (r : regex)             (* r+ *)
| Opt (r : regex).             (* r? *)

(** Character comparison, under [re.IGNORECASE] when [ic] is set. *)
Definition chr_eq (ic : bool) (p c : ascii) : bool :=
  if ic then Ascii.eqb (to_lower p) (to_lower c) else Ascii.eqb p c.

(** [$] without [re.MULTILINE]: at the end of the string, or just before a
    newline that ends it. *)
Definition at_eol (s : list ascii) : bool :=
  match s with
  | [] => true
  | [c] => Ascii.eqb c "010"
  | _ => false
  end.

(** Greedy repetition of [step], then [k]. An iteration has to consume
    input, so [fuel], the length of the input, is enough. *)
Fixpoint repeat_more (step : (bool -> list ascii -> bool) ->
                             bool -> list ascii -> bool)
  (k : bool -> list ascii -> bool) (fuel : nat) (bos : bool)
  (s : list ascii) : bool :=
  match fuel with
  | O => k bos s
  | S fuel' =>
      step (fun b' s' =>
              (List.length s' <? List.length s)%nat
              && repeat_more step k fuel' b' s') bos s
      || k bos s
  end.

(** A backtracking matcher in continuation-passing style. [bos] tells
    whether the position is the start of the string, [s] is the rest of the
    input and [k] is what has to match after [r]. *)
Fixpoint re_run (ic : bool) (r : regex) (k : bool -> list ascii -> bool)
  (bos : bool) (s : list ascii) {struct r} : bool :=
  match r with
  | Bol => bos && k bos s
  | Eol => at_eol s && k bos s
  | Digit =>
      match s with c :: s' => is_digit c && k false s' | [] => false end
  | Chr p =>
      match s with c :: s' => chr_eq ic p c && k false s' | [] => false end
  | Cls cs =>
      match s with
      | c :: s' => existsb (fun p => chr_eq ic p c) cs && k false s'
      | [] => false
      end
  | Seq r1 r2 => re_run ic r1 (re_run ic r2 k) bos s
  | Opt r1 => re_run ic r1 k bos s || k bos s
  | Plus r1 =>
      re_run ic r1
        (fun b' s' => repeat_more (re_run ic r1) k (List.length s') b' s')
        bos s
  end.

(** [re.match(pattern, string, flags)] as a truth value: the pattern is
    tried at the start of the string only, and need not reach its end. *)
Definition re_match (r : regex) (s : string) (ignorecase : bool) : bool :=
  re_run ignorecase r (fun _ _ => true) true (list_ascii_of_string s).

(** The pattern [^\d+[kmgt]b?$]. *)
Definition size_pattern : regex :=
  Seq Bol (Seq (Plus Digit) (Seq (Cls ["k"; "m"; "g"; "t"]%char)
    (Seq (Opt (Chr "b")) Eol))).

(** ** The validators of [LivyHook] *)

Section Validators.
Context `{PyRuntime}.

Definition _validate_session_id (session_id : pyval) : result unit :=
  match py_int session_id with
  | Ok _ => Ok tt
  | Raise (TypeError _) | Raise (ValueError _) =>
      Raise (TypeError "'session_id' must be an integer")
  | Raise e => Raise e
  end.

Definition _validate_size_format (size : pyval) : result bool :=
  if truthy size
     && negb (match size with
              | PStr s => re_match size_pattern s true
              | _ => false
              end)
  then Raise (ValueError
                ("Invalid java size format for string'" ++ py_str size ++ "'"))
  else Ok true.

Definition _validate_list_of_stringables (vals : pyval) : result bool :=
  match vals with
  | PList l | PTuple l =>
      if existsb (fun val => negb (isinstance_str val || isinstance_int val
                                   || isinstance_float val)) l
      then Raise (ValueError "List of strings expected")
      else Ok true
  | _ => Raise (ValueError "List of strings expected")
  end.

Definition _validate_extra_conf (conf : pyval) : result bool :=
  if truthy conf then
    match conf with
    | PDict d =>
        if existsb (fun kv => negb (truthy (snd kv) && isinstance_str (snd kv)
                                    || isinstance_int (snd kv))) d
        then Raise (ValueError "'conf' values must be either strings or ints")
        else Ok true
    | _ => Raise (ValueError "'conf' argument must be a dict")
    end
  else Ok true.

End Validators.

(** ** Dictionaries *)

Fixpoint dict_get (k : string) (d : pydict) : option pyval :=
  match d with
  | [] => None
  | (k', v) :: d' => if String.eqb k k' then Some v else dict_get k d'
  end.

(** [d[k] = v]: the value of an existing key is replaced in place, a new
    key goes to the end. *)
Fixpoint dict_set (k : string) (v : pyval) (d : pydict) : pydict :=
  match d with
  | [] => [(k, v)]
  | (k', v') :: d' =>
      if String.eqb k k' then (k', v) :: d' else (k', v') :: dict_set k v d'
  end.

(** [d.update(other)]. *)
Definition dict_update (d other : pydict) : pydict :=
  fold_left (fun acc kv => dict_set (fst kv) (snd kv) acc) other d.

Definition dict_keys (d : pydict) : list string := map fst d.

(** ** Errors as results *)

Definition bindR {A B} (m : result A) (f : A -> result B) : result B :=
  match m with
  | Ok a => f a
  | Raise e => Raise e
  end.

Notation "x <-! m ;; k" := (bindR m (fun x => k))
  (at level 61, m at next level, right associativity).

(** ** Batch states *)

Inductive BatchState : Type :=
| NOT_STARTED | STARTING | RUNNING | IDLE | BUSY
| SHUTTING_DOWN | ERROR | DEAD | KILLED | SUCCESS.

Definition BatchState_value (s : BatchState) : string :=
  match s with
  | NOT_STARTED => "not_started"
  | STARTING => "starting"
  | RUNNING => "running"
  | IDLE => "idle"
  | BUSY => "busy"
  | SHUTTING_DOWN => "shutting_down"
  | ERROR => "error"
  | DEAD => "dead"
  | KILLED => "killed"
  | SUCCESS => "success"
  end.

Definition BatchState_members : list BatchState :=
  [NOT_STARTED; STARTING; RUNNING; IDLE; BUSY;
   SHUTTING_DOWN; ERROR; DEAD; KILLED; SUCCESS].

(** [BatchState(value)]: the member whose value equals [value]; only a
    [str] equals a member's value. *)
Definition BatchState_of (value : pyval) : result BatchState :=
  match value with
  | PStr s =>
      match find (fun m => String.eqb (BatchState_value m) s)
                 BatchState_members with
      | Some m => Ok m
      | None => Raise (ValueError "is not a valid BatchState")
      end
  | _ => Raise (ValueError "is not a valid BatchState")
  end.

Definition TERMINAL_STATES : list BatchState := [SUCCESS; DEAD; KILLED; ERROR].

(** ** Operators and methods of the interpreter the hook relies on *)

(** [a <= b] for an [int] [a]. *)
Definition py_int_le (a : Z) (b : pyval) : result bool :=
  match b with
  | PInt z => Ok (a <=? z)
  | PBool t => Ok (a <=? (if t then 1 else 0))
  | PFloat f =>
      match f with
      | S754_nan => Ok false
      | S754_infinity s => Ok (negb s)
      | S754_zero _ => Ok (a <=? 0)
      | S754_finite s m e =>
          let v := if s then Z.neg m else Z.pos m in
          Ok (if 0 <=? e then a <=? Z.shiftl v e
              else Z.shiftl a (- e) <=? v)
      end
  | _ => Raise (TypeError "'<=' not supported between instances")
  end.

(** [key in container] for a [str] key. *)
Definition py_contains (key : string) (container : pyval) : result bool :=
  match container with
  | PDict d => Ok (existsb (String.eqb key) (dict_keys d))
  | PList l | PTuple l =>
      Ok (existsb (fun v => match v with
                            | PStr s => String.eqb key s
                            | _ => false
                            end) l)
  | PStr s => Ok (match index 0 key s with Some _ => true | None => false end)
  | _ => Raise (TypeError "argument is not iterable")
  end.

(** [container[key]] for a [str] key. *)
Definition py_getitem (container : pyval) (key : string) : result pyval :=
  match container with
  | PDict d =>
      match dict_get key d with
      | Some v => Ok v
      | None => Raise (KeyError key)
      end
  | PList _ | PTuple _ | PStr _ =>
      Raise (TypeError "indices must be integers or slices, not str")
  | _ => Raise (TypeError "object is not subscriptable")
  end.

(** [obj.get(key)]. *)
Definition py_get (obj : pyval) (key : string) : result pyval :=
  match obj with
  | PDict d =>
      Ok (match dict_get key d with Some v => v | None => PNone end)
  | _ => Raise (AttributeError "object has no attribute 'get'")
  end.

(** The elements a [for] loop goes through. *)
Definition py_iter (v : pyval) : result (list pyval) :=
  match v with
  | PList l | PTuple l => Ok l
  | PStr s =>
      Ok (map (fun c => PStr (String c EmptyString)) (list_ascii_of_string s))
  | PDict d => Ok (map PStr (dict_keys d))
  | _ => Raise (TypeError "object is not iterable")
  end.

(** ** The hook and its transport *)

(** A [requests.Response], as far as the hook reads it: [json_body] is what
    [response.json()] returns, [None] when the body is not JSON. *)
Record Response : Type := {
  status_code : Z;
  text : string;
  json_body : option pyval
}.

(** [response.raise_for_status()] raises for the status codes 400 to 599. *)
Definition is_http_error (r : Response) : bool :=
  (400 <=? status_code r) && (status_code r <? 600).

Inductive log_level : Type := DEBUG | INFO | WARNING.

(** A call of [self.log]: level, message and arguments. *)
Record log_record : Type := {
  lr_level : log_level;
  lr_msg : pyval;
  lr_args : list pyval
}.

(** A call into the parent class [HttpHook], with its arguments:
    [run] and [run_with_advanced_retry] read [self.method]. *)
Inductive http_call : Type :=
| Run (self_method endpoint : string) (data : pyval)
      (headers : option pydict) (extra_options : pydict)
| RunWithAdvancedRetry (_retry_args : pydict)
      (self_method endpoint : string) (data : pyval)
      (headers : option pydict) (extra_options : pydict)
| GetConn (headers : option pydict).

(** What [HttpHook] does on a call. [T] stands for everything behind the
    parent class: its own attributes, the session and the remote service.
    A call assigns no attribute of [LivyHook]. *)
Class HttpHook (T : Type) : Type := {
  run : string -> string -> pyval -> option pydict -> pydict ->
        T -> result Response * T;
  run_with_advanced_retry :
        pydict -> string -> string -> pyval -> option pydict -> pydict ->
        T -> result Response * T;
  super_get_conn : option pydict -> T -> result pyval * T
}.

(** The attributes of a [LivyHook] the methods below read or assign;
    [calls], the calls made into the parent class so far, oldest first;
    and [http], the state behind the parent class. *)
Record LivyHook (T : Type) : Type := {
  method : string;
  extra_options : pydict;
  extra_headers : pydict;
  log : list log_record;
  calls : list http_call;
  http : T
}.
Arguments method {T} _.
Arguments extra_options {T} _.
Arguments extra_headers {T} _.
Arguments log {T} _.
Arguments calls {T} _.
Arguments http {T} _.

(** Computations on a hook: a result and the hook afterwards. An exception
    keeps the assignments made before it. *)
Definition M (T A : Type) : Type := LivyHook T -> result A * LivyHook T.

Definition ret {T A} (a : A) : M T A := fun h => (Ok a, h).

Definition raise {T A} (e : exn) : M T A := fun h => (Raise e, h).

Definition bind {T A B} (m : M T A) (f : A -> M T B) : M T B :=
  fun h =>
    match m h with
    | (Ok a, h') => f a h'
    | (Raise e, h') => (Raise e, h')
    end.

Notation "x <- m ;; k" := (bind m (fun x => k))
  (at level 61, m at next level, right associativity).

Definition lift {T A} (r : result A) : M T A := fun h => (r, h).

(** [try: body finally: fin], for a [fin] that does not raise. *)
Definition try_finally {T A} (body : M T A) (fin : LivyHook T -> LivyHook T)
  : M T A :=
  fun h => let '(r, h') := body h in (r, fin h').

Definition get_method {T} : M T string := fun h => (Ok (method h), h).

Definition with_method {T} (m : string) (h : LivyHook T) : LivyHook T :=
  {| method := m; extra_options := extra_options h;
     extra_headers := extra_headers h; log := log h; calls := calls h;
     http := http h |}.

Definition set_method {T} (m : string) : M T unit :=
  fun h => (Ok tt, with_method m h).

Definition get_extra_options {T} : M T pydict :=
  fun h => (Ok (extra_options h), h).

Definition with_extra_options {T} (o : pydict) (h : LivyHook T) : LivyHook T :=
  {| method := method h; extra_options := o;
     extra_headers := extra_headers h; log := log h; calls := calls h;
     http := http h |}.

Definition set_extra_options {T} (o : pydict) : M T unit :=
  fun h => (Ok tt, with_extra_options o h).

Definition get_extra_headers {T} : M T pydict :=
  fun h => (Ok (extra_headers h), h).

Definition with_log {T} (l : list log_record) (h : LivyHook T) : LivyHook T :=
  {| method := method h; extra_options := extra_options h;
     extra_headers := extra_headers h; log := l; calls := calls h;
     http := http h |}.

(** [self.log.<level>(msg, *args)]. *)
Definition log_call {T} (l : log_level) (m : pyval) (a : list pyval)
  : M T unit :=
  fun h =>
    (Ok tt,
     with_log (log h ++ [{| lr_level := l; lr_msg := m; lr_args := a |}])%list
       h).

Definition with_http {T} (c : http_call) (t : T) (h : LivyHook T)
  : LivyHook T :=
  {| method := method h; extra_options := extra_options h;
     extra_headers := extra_headers h; log := log h;
     calls := (calls h ++ [c])%list; http := t |}.

(** The calls into the parent class; each is added to [calls]. *)
Definition super_run {T} `{HttpHook T} (self_method endpoint : string)
  (data : pyval) (headers : option pydict) (opts : pydict) : M T Response :=
  fun h =>
    let '(r, t') := run self_method endpoint data headers opts (http h) in
    (r, with_http (Run self_method endpoint data headers opts) t' h).

Definition super_run_with_advanced_retry {T} `{HttpHook T} (ra : pydict)
  (self_method endpoint : string) (data : pyval) (headers : option pydict)
  (opts : pydict) : M T Response :=
  fun h =>
    let '(r, t') :=
      run_with_advanced_retry ra self_method endpoint data headers opts
        (http h) in
    (r, with_http
          (RunWithAdvancedRetry ra self_method endpoint data headers opts)
          t' h).

Definition super_conn {T} `{HttpHook T} (headers : option pydict)
  : M T pyval :=
  fun h =>
    let '(r, t') := super_get_conn headers (http h) in
    (r, with_http (GetConn headers) t' h).

Definition _def_headers : pydict :=
  [("Content-Type", PStr "application/json");
   ("Accept", PStr "application/json")].

Definition http_methods : list string :=
  ["GET"; "POST"; "PUT"; "DELETE"; "HEAD"].

Section Hook.
Context {T : Type} `{HttpHook T} `{PyRuntime}.

(** The headers [get_conn] hands to the parent class. *)
Definition conn_headers (headers : option pydict) : pydict :=
  let tmp_headers := _def_headers in
  match headers with
  | Some ((_ :: _) as hs) => dict_update tmp_headers hs
  | _ => tmp_headers
  end.

Definition get_conn (headers : option pydict) : M T pyval :=
  super_conn (Some (conn_headers headers)).

Definition run_method (endpoint : string) (method : string) (data : pyval)
  (headers : option pydict) (retry_args : option pydict) : M T Response :=
  if negb (existsb (String.eqb method) http_methods)
  then raise (ValueError ("Invalid http method '" ++ method ++ "'"))
  else
    opts <- get_extra_options ;;
    _ <- match opts with
         | [] => set_extra_options [("check_response", PBool false)]
         | _ => ret tt
         end ;;
    back_method <- get_method ;;
    _ <- set_method method ;;
    try_finally
      (self_method <- get_method ;;
       opts <- get_extra_options ;;
       match retry_args with
       | Some ((_ :: _) as ra) =>
           super_run_with_advanced_retry ra self_method endpoint data
             headers opts
       | _ => super_run self_method endpoint data headers opts
       end)
      (with_method back_method).

(** [response.raise_for_status()] inside [try], with the handler the batch
    operations share up to the text of the message. *)
Definition raise_for_status (response : Response) (session_id : pyval)
  (message : string) : M T unit :=
  if is_http_error response then
    _ <- log_call WARNING (PStr "Got status code %d for session %d")
           [PInt (status_code response); session_id] ;;
    raise (AirflowException
             (message ++ py_str session_id ++ ". Message: " ++ text response))
  else ret tt.

(** [response.json()]. *)
Definition json (response : Response) : M T pyval :=
  match json_body response with
  | Some v => ret v
  | None => raise (JSONDecodeError "Expecting value")
  end.

Definition get_batch_state (session_id : pyval) (retry_args : option pydict)
  : M T BatchState :=
  _ <- lift (_validate_session_id session_id) ;;
  _ <- log_call DEBUG (PStr "Fetching info for batch session %d")
         [session_id] ;;
  headers <- get_extra_headers ;;
  response <- run_method ("/batches/" ++ py_str session_id ++ "/state") "GET"
                PNone (Some headers) retry_args ;;
  _ <- raise_for_status response session_id
         "Unable to fetch batch with id: " ;;
  jresp <- json response ;;
  has_state <- lift (py_contains "state" jresp) ;;
  if negb has_state then
    raise (AirflowException
             ("Unable to get state for batch with id: " ++ py_str session_id))
  else
    state <- lift (py_getitem jresp "state") ;;
    lift (BatchState_of state).

Definition get_batch_logs (session_id log_start_position log_batch_size : pyval)
  : M T pyval :=
  _ <- lift (_validate_session_id session_id) ;;
  let log_params :=
    PDict [("from", log_start_position); ("size", log_batch_size)] in
  headers <- get_extra_headers ;;
  response <- run_method ("/batches/" ++ py_str session_id ++ "/log") "GET"
                log_params (Some headers) None ;;
  _ <- raise_for_status response session_id
         "Could not fetch the logs for batch with session id: " ;;
  json response.

Definition _parse_request_response (response : pyval) (parameter : string)
  : result pyval :=
  py_get response parameter.

(** [for log_line in log_lines: self.log.info(log_line)]. *)
Fixpoint log_lines_info (log_lines : list pyval) : M T unit :=
  match log_lines with
  | [] => ret tt
  | log_line :: rest =>
      _ <- log_call INFO log_line [] ;; log_lines_info rest
  end.

Definition log_batch_size : Z := 100.

(** One turn of the loop of [dump_batch_logs] after its test: the page is
    fetched and its lines are logged; the result is the new total. *)
Definition dump_page (session_id : pyval) (log_start_line : Z) : M T pyval :=
  response <- get_batch_logs session_id (PInt log_start_line)
                (PInt log_batch_size) ;;
  log_total_lines <- lift (_parse_request_response response "total") ;;
  log_lines <- lift (_parse_request_response response "log") ;;
  lines <- lift (py_iter log_lines) ;;
  _ <- log_lines_info lines ;;
  ret log_total_lines.

(** The [while] loop of [dump_batch_logs]; every test of its condition
    takes one unit of [fuel], and [None] is a loop still running when the
    fuel is used up. *)
Fixpoint dump_loop (fuel : nat) (session_id : pyval) (log_start_line : Z)
  (log_total_lines : pyval) (h : LivyHook T)
  : option (result unit * LivyHook T) :=
  match fuel with
  | O => None
  | S fuel' =>
      match py_int_le log_start_line log_total_lines with
      | Raise e => Some (Raise e, h)
      | Ok false => Some (Ok tt, h)
      | Ok true =>
          match dump_page session_id log_start_line h with
          | (Ok total, h') =>
              dump_loop fuel' session_id (log_start_line + log_batch_size)
                total h'
          | (Raise e, h') => Some (Raise e, h')
          end
      end
  end.

Definition dump_batch_logs (fuel : nat) (session_id : pyval) (h : LivyHook T)
  : option (result unit * LivyHook T) :=
  match log_call INFO
          (PStr "Fetching the logs for batch session with id: %d")
          [session_id] h with
  | (Ok _, h') => dump_loop fuel session_id 0 (PInt 0) h'
  | (Raise e, h') => Some (Raise e, h')
  end.

End Hook.

(** ** The request body of a batch submission *)

(** The arguments of [build_post_batch_body]; an argument left out is
    [None]. *)
Record batch_params : Type := {
  file : pyval;
  args : pyval;
  class_name : pyval;
  jars : pyval;
  py_files : pyval;
  files : pyval;
  archives : pyval;
  name : pyval;
  driver_memory : pyval;
  driver_cores : pyval;
  executor_memory : pyval;
  executor_cores : pyval;
  num_executors : pyval;
  queue : pyval;
  proxy_user : pyval;
  conf : pyval
}.

(** [if v and check(v): body[key] = value(v)]. *)
Definition put_if (v : pyval) (check : pyval -> result bool) (key : string)
  (value : pyval -> result pyval) (body : pydict) : result pydict :=
  if truthy v then
    ok <-! check v ;;
    if ok then (x <-! value v ;; Ok (dict_set key x body)) else Ok body
  else Ok body.

Definition unchecked (v : pyval) : result bool := Ok true.

Definition as_is (v : pyval) : result pyval := Ok v.

Section Body.
Context `{PyRuntime}.

(** [[str(val) for val in args]]. *)
Definition str_each (v : pyval) : result pyval :=
  l <-! py_iter v ;; Ok (PList (map (fun val => PStr (py_str val)) l)).

Definition build_post_batch_body (p : batch_params) : result pydict :=
  let body := [("file", file p)] in
  body <-! put_if (proxy_user p) unchecked "proxyUser" as_is body ;;
  body <-! put_if (class_name p) unchecked "className" as_is body ;;
  body <-! put_if (args p) _validate_list_of_stringables "args" str_each
             body ;;
  body <-! put_if (jars p) _validate_list_of_stringables "jars" as_is body ;;
  body <-! put_if (py_files p) _validate_list_of_stringables "pyFiles" as_is
             body ;;
  body <-! put_if (files p) _validate_list_of_stringables "files" as_is
             body ;;
  body <-! put_if (driver_memory p) _validate_size_format "driverMemory"
             as_is body ;;
  body <-! put_if (driver_cores p) unchecked "driverCores" as_is body ;;
  body <-! put_if (executor_memory p) _validate_size_format "executorMemory"
             as_is body ;;
  body <-! put_if (executor_cores p) unchecked "executorCores" as_is body ;;
  body <-! put_if (num_executors p) unchecked "numExecutors" as_is body ;;
  body <-! put_if (archives p) _validate_list_of_stringables "archives" as_is
             body ;;
  body <-! put_if (queue p) unchecked "queue" as_is body ;;
  body <-! put_if (name p) unchecked "name" as_is body ;;
  body <-! put_if (conf p) _validate_extra_conf "conf" as_is body ;;
  Ok body.

End Body.

(** ** The vocabulary of the specification *)

(** The specification's [InvalidArgument] is a [TypeError] or a
    [ValueError]; its [FetchError] is an [AirflowException]. *)
Definition InvalidArgument (e : exn) : Prop :=
  match e with
  | TypeError _ | ValueError _ => True
  | _ => False
  end.





(** A configuration value the hook accepts: a non-empty [str] or an [int]
    (of which [True] and [False] are instances). *)
Definition conf_value_ok (v : pyval) : Prop :=
  (exists s, v = PStr s /\ s <> "") \/ (exists z, v = PInt z)
  \/ (exists b, v = PBool b).

(** The test [_validate_extra_conf] makes on a value. *)
Definition conf_value_okb (v : pyval) : bool :=
  truthy v && isinstance_str v || isinstance_int v.


(** 3.5 *)
Definition three_and_a_half : spec_float := S754_finite false 7 (-1).

(** A [dict] has no key twice. *)
Definition wf_dict (d : pydict) : Prop := NoDup (dict_keys d).

(** The optional arguments of [build_post_batch_body] with their keys in
    the body. *)
Definition optional_fields : list (string * (batch_params -> pyval)) :=
  [("proxyUser", proxy_user); ("className", class_name); ("args", args);
   ("jars", jars); ("pyFiles", py_files); ("files", files);
   ("driverMemory", driver_memory); ("driverCores", driver_cores);
   ("executorMemory", executor_memory); ("executorCores", executor_cores);
   ("numExecutors", num_executors); ("archives", archives);
   ("queue", queue); ("name", name); ("conf", conf)].

(** All the arguments, [file] included. *)
Definition all_fields : list (string * (batch_params -> pyval)) :=
  ("file", file) :: optional_fields.

Definition only_file_set (p : batch_params) : Prop :=
  Forall (fun kf => truthy (snd kf p) = false) optional_fields.


(** The options a call into the parent class carries. *)
Definition call_options (c : http_call) : option pydict :=
  match c with
  | Run _ _ _ _ o | RunWithAdvancedRetry _ _ _ _ _ o => Some o
  | GetConn _ => None
  end.

(** [extra_options] as [run_method] passes it on. *)
Definition effective_options (o : pydict) : pydict :=
  match o with
  | [] => [("check_response", PBool false)]
  | _ => o
  end.





Section Service.
Context {T : Type} `{HttpHook T} `{PyRuntime}.


(** The call [run_method] makes into the parent class. *)
Definition run_method_call (endpoint m : string) (data : pyval)
  (headers retry_args : option pydict) (h : LivyHook T) : http_call :=
  match retry_args with
  | Some ((_ :: _) as ra) =>
      RunWithAdvancedRetry ra m endpoint data headers
        (effective_options (extra_options h))
  | _ => Run m endpoint data headers (effective_options (extra_options h))
  end.

(** What the parent class answers to that call. *)
Definition run_method_answer (endpoint m : string) (data : pyval)
  (headers retry_args : option pydict) (h : LivyHook T)
  : result Response * T :=
  match retry_args with
  | Some ((_ :: _) as ra) =>
      run_with_advanced_retry ra m endpoint data headers
        (effective_options (extra_options h)) (http h)
  | _ => run m endpoint data headers (effective_options (extra_options h))
           (http h)
  end.



End Service.

(** The first record [dump_batch_logs] logs. *)
Definition dump_header (session_id : pyval) : log_record :=
  {| lr_level := INFO;
     lr_msg := PStr "Fetching the logs for batch session with id: %d";
     lr_args := [session_id] |}.

(** ** A runtime and services to run the hook against *)

Definition cpython : PyRuntime :=
  {| int_max_str_digits := 4300; runtime_str := fun _ => "<object>" |}.

(** [l[from : from + size]]. *)
Definition slice {A} (l : list A) (from size : Z) : list A :=
  firstn (Z.to_nat size) (skipn (Z.to_nat from) l).

(** A service that holds the lines of a log and answers every request with
    the page its [from] and [size] ask for. *)
Definition log_service (lines : list pyval) : HttpHook unit :=
  let answer (data : pyval) : result Response :=
    match data with
    | PDict [("from", PInt from); ("size", PInt size)] =>
        Ok {| status_code := 200; text := "";
              json_body :=
                Some (PDict [("id", PInt 0); ("from", PInt from);
                             ("total", PInt (Z.of_nat (List.length lines)));
                             ("log", PList (slice lines from size))]) |}
    | _ => Ok {| status_code := 400; text := "bad request";
                 json_body := None |}
    end in
  {| run := fun _ _ data _ _ t => (answer data, t);
     run_with_advanced_retry := fun _ _ _ data _ _ t => (answer data, t);
     super_get_conn := fun _ t => (Ok PNone, t) |}.





(** A service that cannot be reached. *)
Definition no_service : HttpHook unit :=
  {| run := fun _ _ _ _ _ t => (Raise (ConnectionError "refused"), t);
     run_with_advanced_retry :=
       fun _ _ _ _ _ _ t => (Raise (ConnectionError "refused"), t);
     super_get_conn := fun _ t => (Raise (ConnectionError "refused"), t) |}.

(** A hook as [__init__] leaves it when no options or headers are given;
    [HttpHook.__init__] sets [method] to "POST". *)
Definition hook_on {T} (t : T) : LivyHook T :=
  {| method := "POST"; extra_options := []; extra_headers := [];
     log := []; calls := []; http := t |}.

Definition new_hook : LivyHook unit := hook_on tt.

Definition numbered_lines (n : nat) : list pyval :=
  map (fun i => PStr ("line " ++ NilZero.string_of_uint (Nat.to_uint i)))
      (seq 0 n).

Definition no_params (f : pyval) : batch_params :=
  {| file := f; args := PNone; class_name := PNone; jars := PNone;
     py_files := PNone; files := PNone; archives := PNone; name := PNone;
     driver_memory := PNone; driver_cores := PNone; executor_memory := PNone;
     executor_cores := PNone; num_executors := PNone; queue := PNone;
     proxy_user := PNone; conf := PNone |}.

(** ** The other batch operations *)

Definition _parse_post_response (response : pyval) : result pyval :=
  py_get response "id".

(** [HttpHook.base_url]: [None] until the parent's [get_conn] sets it. *)
Class HttpBase (T : Type) : Type := {
  base_url : T -> option string
}.

(** [json.dumps(v)]. *)
Class PyJson : Type := {
  json_dumps : pyval -> string
}.

Section Operations.
Context {T : Type} `{HttpHook T} `{PyRuntime}.

Definition get_batch (session_id : pyval) : M T pyval :=
  _ <- lift (_validate_session_id session_id) ;;
  _ <- log_call DEBUG (PStr "Fetching info for batch session %d")
         [session_id] ;;
  headers <- get_extra_headers ;;
  response <- run_method ("/batches/" ++ py_str session_id) "GET" PNone
                (Some headers) None ;;
  _ <- raise_for_status response session_id
         "Unable to fetch batch with id: " ;;
  json response.

Definition delete_batch (session_id : pyval) : M T pyval :=
  _ <- lift (_validate_session_id session_id) ;;
  _ <- log_call INFO (PStr "Deleting batch session %d") [session_id] ;;
  headers <- get_extra_headers ;;
  response <- run_method ("/batches/" ++ py_str session_id) "DELETE" PNone
                (Some headers) None ;;
  _ <- raise_for_status response session_id
         "Could not kill the batch with session id: " ;;
  json response.

Context `{HttpBase T} `{PyJson}.

(** [self.base_url], as a value to log. *)
Definition get_base_url : M T (option string) :=
  fun h => (Ok (base_url (http h)), h).

Definition url_value (url : option string) : pyval :=
  match url with
  | Some u => PStr u
  | None => PNone
  end.

Definition post_batch (p : batch_params) : M T pyval :=
  body <- lift (build_post_batch_body p) ;;
  let batch_submit_body := json_dumps (PDict body) in
  url <- get_base_url ;;
  _ <- match url with
       | None => (_ <- get_conn None ;; ret tt)
       | Some _ => ret tt
       end ;;
  url <- get_base_url ;;
  _ <- log_call INFO (PStr "Submitting job %s to %s")
         [PStr batch_submit_body; url_value url] ;;
  headers <- get_extra_headers ;;
  response <- run_method "/batches" "POST" (PStr batch_submit_body)
                (Some headers) None ;;
  _ <- log_call DEBUG (PStr "Got response: %s") [PStr (text response)] ;;
  _ <- (if is_http_error response then
          raise (AirflowException
                   ("Could not submit batch. Status code: "
                    ++ py_str (PInt (status_code response))
                    ++ ". Message: '" ++ text response ++ "'"))
        else ret tt) ;;
  jresp <- json response ;;
  batch_id <- lift (_parse_post_response jresp) ;;
  match batch_id with
  | PNone => raise (AirflowException "Unable to parse the batch session id")
  | _ =>
      _ <- log_call INFO (PStr "Batch submitted with session id: %d")
             [batch_id] ;;
      ret batch_id
  end.

End Operations.

(** ** Vocabulary for the properties of the builder *)

(** A value [_validate_list_of_stringables] accepts as an element. *)
Definition stringable (v : pyval) : Prop :=
  (exists s, v = PStr s) \/ (exists z, v = PInt z) \/ (exists b, v = PBool b)
  \/ (exists f, v = PFloat f).

(** The elements of a list or a tuple. *)
Definition elements (v : pyval) : list pyval :=
  match v with
  | PList l | PTuple l => l
  | _ => []
  end.


Section BodyVocabulary.
Context `{PyRuntime}.





(** The builder as a table of steps, which is how its properties are
    proved: argument, validator, key and value. *)
Record body_step : Type := {
  bs_field : batch_params -> pyval;
  bs_check : pyval -> result bool;
  bs_key : string;
  bs_value : pyval -> result pyval
}.

Definition body_steps : list body_step :=
  [{| bs_field := proxy_user; bs_check := unchecked;
      bs_key := "proxyUser"; bs_value := as_is |};
   {| bs_field := class_name; bs_check := unchecked;
      bs_key := "className"; bs_value := as_is |};
   {| bs_field := args; bs_check := _validate_list_of_stringables;
      bs_key := "args"; bs_value := str_each |};
   {| bs_field := jars; bs_check := _validate_list_of_stringables;
      bs_key := "jars"; bs_value := as_is |};
   {| bs_field := py_files; bs_check := _validate_list_of_stringables;
      bs_key := "pyFiles"; bs_value := as_is |};
   {| bs_field := files; bs_check := _validate_list_of_stringables;
      bs_key := "files"; bs_value := as_is |};
   {| bs_field := driver_memory; bs_check := _validate_size_format;
      bs_key := "driverMemory"; bs_value := as_is |};
   {| bs_field := driver_cores; bs_check := unchecked;
      bs_key := "driverCores"; bs_value := as_is |};
   {| bs_field := executor_memory; bs_check := _validate_size_format;
      bs_key := "executorMemory"; bs_value := as_is |};
   {| bs_field := executor_cores; bs_check := unchecked;
      bs_key := "executorCores"; bs_value := as_is |};
   {| bs_field := num_executors; bs_check := unchecked;
      bs_key := "numExecutors"; bs_value := as_is |};
   {| bs_field := archives; bs_check := _validate_list_of_stringables;
      bs_key := "archives"; bs_value := as_is |};
   {| bs_field := queue; bs_check := unchecked;
      bs_key := "queue"; bs_value := as_is |};
   {| bs_field := name; bs_check := unchecked;
      bs_key := "name"; bs_value := as_is |};
   {| bs_field := conf; bs_check := _validate_extra_conf;
      bs_key := "conf"; bs_value := as_is |}].

End BodyVocabulary.

Fixpoint run_steps (steps : list body_step) (p : batch_params)
  (body : pydict) : result pydict :=
  match steps with
  | [] => Ok body
  | s :: rest =>
      body' <-! put_if (bs_field s p) (bs_check s) (bs_key s) (bs_value s)
                  body ;;
      run_steps rest p body'
  end.

(** What a step adds to the body, and the error it stops with. *)
Definition step_entry (s : body_step) (p : batch_params) : pydict :=
  if truthy (bs_field s p) then
    match bs_value s (bs_field s p) with
    | Ok x => [(bs_key s, x)]
    | Raise _ => []
    end
  else [].

Fixpoint steps_error (steps : list body_step) (p : batch_params)
  : option exn :=
  match steps with
  | [] => None
  | s :: rest =>
      if truthy (bs_field s p) then
        match bs_check s (bs_field s p) with
        | Raise e => Some e
        | Ok _ => steps_error rest p
        end
      else steps_error rest p
  end.

(** A step whose validator returns [True] or raises, and whose value is
    there for every argument the validator accepts. *)
Definition step_sound (s : body_step) : Prop :=
  forall v, (exists e, bs_check s v = Raise e)
            \/ (bs_check s v = Ok true /\ exists x, bs_value s v = Ok x).

(** A batch submission with every argument set. *)
Definition full_params : batch_params :=
  {| file := PStr "local:///app.jar";
     args := PTuple [PStr "--date"; PInt 20240101; PBool true];
     class_name := PStr "org.example.Main";
     jars := PList [PStr "a.jar"];
     py_files := PList [PStr "dep.zip"];
     files := PList [PStr "conf.yaml"];
     archives := PList [PStr "env.tar.gz"];
     name := PStr "nightly";
     driver_memory := PStr "2g";
     driver_cores := PInt 2;
     executor_memory := PStr "512MB";
     executor_cores := PInt 4;
     num_executors := PStr "10";
     queue := PStr "default";
     proxy_user := PStr "etl";
     conf := PDict [("spark.ui.enabled", PBool false);
                    ("spark.app.tag", PStr "x")] |}.

(** ** Vocabulary for the properties of the operations *)


(** The hook after an operation that logged [records] and made the call
    [c], which left the state [t'] behind the parent class. *)
Definition after_call {T} (h : LivyHook T) (records : list log_record)
  (c : http_call) (t' : T) : LivyHook T :=
  {| method := method h;
     extra_options := effective_options (extra_options h);
     extra_headers := extra_headers h;
     log := (log h ++ records)%list;
     calls := (calls h ++ [c])%list;
     http := t' |}.

(** [h'] is [h] after some operations: the method and the headers are the
    same, the log and the calls have grown at their end, and the options
    are the same or have become the effective ones. *)
Definition extends {T} (h h' : LivyHook T) : Prop :=
  method h' = method h
  /\ extra_headers h' = extra_headers h
  /\ (exists records, log h' = (log h ++ records)%list)
  /\ (exists cs, calls h' = (calls h ++ cs)%list)
  /\ (extra_options h' = extra_options h
      \/ extra_options h' = effective_options (extra_options h)).

Definition preserves {T A} (m : M T A) : Prop :=
  forall h, extends h (snd (m h)).



(** A service with a base URL that is known from the start. *)
Definition known_url : HttpBase unit :=
  {| base_url := fun _ => Some "http://livy:8998" |}.



(** A stand-in for [json.dumps]. *)
Definition opaque_json : PyJson := {| json_dumps := fun _ => "<json>" |}.




(** ** Vocabulary for the log dump over a whole log *)




(** The keys a request body can have, in the order of the builder. *)
Definition body_keys : list string :=
  ["file"; "proxyUser"; "className"; "args"; "jars"; "pyFiles"; "files";
   "driverMemory"; "driverCores"; "executorMemory"; "executorCores";
   "numExecutors"; "archives"; "queue"; "name"; "conf"].

(** * Properties *)

(** ** Session ids *)

Section SessionIdFacts.
Context `{PyRuntime}.




(** Whatever [int()] makes of the value decides: the validation passes
    exactly when [int()] returns. *)
Lemma validate_session_id_iff_int (v : pyval) :
  _validate_session_id v = Ok tt <-> exists z, py_int v = Ok z.
Proof.
  unfold _validate_session_id. destruct (py_int v) as [z | e].
  - split; eauto.
  - split.
    + destruct e; discriminate.
    + intros [z Hz]. discriminate.
Qed.

(** *** Strings [int()] parses, and strings it does not *)












End SessionIdFacts.







(** ** Configuration values *)

Lemma conf_value_okb_iff (v : pyval) :
  conf_value_okb v = true <-> conf_value_ok v.
Proof.
  unfold conf_value_okb, conf_value_ok. split.
  - destruct v as [| b | z | f | s | l | l | d]; cbn;
      rewrite ?andb_false_r; try discriminate; eauto.
    rewrite andb_true_r, orb_false_r. intros Hs. left. exists s. split; auto.
    intros ->. discriminate.
  - intros [(s & -> & Hs) | [(z & ->) | (b & ->)]]; cbn;
      rewrite ?andb_false_r; auto.
    rewrite andb_true_r, orb_false_r.
    destruct (String.eqb_spec s ""); [contradiction | reflexivity].
Qed.

Lemma conf_values_scan (d : pydict) :
  existsb (fun kv => negb (conf_value_okb (snd kv))) d = false
  <-> Forall (fun kv => conf_value_ok (snd kv)) d.
Proof.
  induction d as [| kv d IH]; cbn.
  - split; auto.
  - rewrite orb_false_iff, negb_false_iff, IH, conf_value_okb_iff.
    split.
    + intros [Hv Hd]. now constructor.
    + intros Hall. inversion Hall; subst. auto.
Qed.

Lemma validate_extra_conf_dict (d : pydict) :
  _validate_extra_conf (PDict d)
  = if existsb (fun kv => negb (conf_value_okb (snd kv))) d
    then Raise (ValueError "'conf' values must be either strings or ints")
    else Ok true.
Proof.
  destruct d as [| kv d]; reflexivity.
Qed.

(** C6. The validation of a [conf] mapping passes exactly when every value
    is a non-empty string or an integer, and raises a [ValueError]
    otherwise; [{"a": "x", "b": 1}] passes, and [{"a": None}],
    [{"a": 3.5}] and [{"a": ""}] fail. *)
Theorem validate_extra_conf_spec (d : pydict) :
  (_validate_extra_conf (PDict d) = Ok true
   <-> Forall (fun kv => conf_value_ok (snd kv)) d)
  /\ (~ Forall (fun kv => conf_value_ok (snd kv)) d ->
      exists e, _validate_extra_conf (PDict d) = Raise e
                /\ InvalidArgument e
                /\ e = ValueError
                         "'conf' values must be either strings or ints")
  /\ _validate_extra_conf (PDict [("a", PStr "x"); ("b", PInt 1)]) = Ok true
  /\ (exists e, _validate_extra_conf (PDict [("a", PNone)]) = Raise e
                /\ InvalidArgument e)
  /\ (exists e, _validate_extra_conf
                  (PDict [("a", PFloat three_and_a_half)]) = Raise e
                /\ InvalidArgument e)
  /\ (exists e, _validate_extra_conf (PDict [("a", PStr "")]) = Raise e
                /\ InvalidArgument e).
Proof.
  rewrite validate_extra_conf_dict.
  split; [| split; [| split; [| split; [| split]]]].
  - rewrite <- conf_values_scan.
    destruct (existsb _ d); split; congruence.
  - rewrite <- conf_values_scan.
    destruct (existsb _ d); [| congruence].
    intros _. eexists. split; [reflexivity |]. split; [exact I | reflexivity].
  - reflexivity.
  - eexists. split; [reflexivity | exact I].
  - eexists. split; [reflexivity | exact I].
  - eexists. split; [reflexivity | exact I].
Qed.

Lemma validate_extra_conf_spec_witness :
  ~ Forall (fun kv => conf_value_ok (snd kv)) [("spark.x", PList [])]
  /\ exists e, _validate_extra_conf (PDict [("spark.x", PList [])]) = Raise e
               /\ InvalidArgument e
               /\ e = ValueError
                        "'conf' values must be either strings or ints".
Proof.
  assert (Hbad : ~ Forall (fun kv => conf_value_ok (snd kv))
                     [("spark.x", PList [])]).
  { intros Hall. inversion Hall as [| ? ? Hv _]; subst.
    apply conf_value_okb_iff in Hv. discriminate. }
  split; [exact Hbad |].
  exact (proj1 (proj2 (validate_extra_conf_spec [("spark.x", PList [])]))
           Hbad).
Defined.

(** ** The method wrapper *)

Section RunMethodFacts.
Context {T : Type} `{HttpHook T}.

Lemma run_method_invalid (endpoint m : string) (data : pyval)
  (headers retry_args : option pydict) (h : LivyHook T) :
  existsb (String.eqb m) http_methods = false ->
  run_method endpoint m data headers retry_args h
  = (Raise (ValueError ("Invalid http method '" ++ m ++ "'")), h).
Proof.
  intros Hm. unfold run_method. rewrite Hm. reflexivity.
Qed.

(** With one of the five methods, [run_method] makes one call into the
    parent class, under the method asked for and with the effective
    options; afterwards [method] is what it was and [extra_options] are
    the effective options. *)
Lemma run_method_valid (endpoint m : string) (data : pyval)
  (headers retry_args : option pydict) (h : LivyHook T) :
  existsb (String.eqb m) http_methods = true ->
  run_method endpoint m data headers retry_args h
  = (fst (run_method_answer endpoint m data headers retry_args h),
     {| method := method h;
        extra_options := effective_options (extra_options h);
        extra_headers := extra_headers h;
        log := log h;
        calls := (calls h
                  ++ [run_method_call endpoint m data headers retry_args h])%list;
        http := snd (run_method_answer endpoint m data headers retry_args h)
     |}).
Proof.
  intros Hm. unfold run_method, run_method_answer, run_method_call.
  rewrite Hm. destruct h as [m0 o hd lg cs t]. cbn.
  destruct o as [| kv o]; destruct retry_args as [[| ra0 ra] |];
    cbv [bind try_finally get_method get_extra_options set_extra_options
         set_method with_method with_extra_options ret super_run
         super_run_with_advanced_retry with_http effective_options];
    cbn;
    match goal with
    | |- context [run ?a ?b ?c ?d ?e ?f] => destruct (run a b c d e f)
    | |- context [run_with_advanced_retry ?g ?a ?b ?c ?d ?e ?f] =>
        destruct (run_with_advanced_retry g a b c d e f)
    end; reflexivity.
Qed.

End RunMethodFacts.

(** C7. Whatever its arguments, whatever the parent class answers and
    whether the request returns or raises, [run_method] leaves [method] as
    it was before the call; the request itself went out under the method
    asked for. *)
Theorem run_method_restores_method {T : Type} `{HttpHook T}
  (endpoint m : string) (data : pyval) (headers retry_args : option pydict)
  (h : LivyHook T) :
  method (snd (run_method endpoint m data headers retry_args h)) = method h
  /\ (forall r h', run_method endpoint m data headers retry_args h = (r, h') ->
                   method h' = method h)
  /\ (existsb (String.eqb m) http_methods = true ->
      calls (snd (run_method endpoint m data headers retry_args h))
      = (calls h
         ++ [run_method_call endpoint m data headers retry_args h])%list).
Proof.
  destruct (existsb (String.eqb m) http_methods) eqn:Hm.
  - rewrite (run_method_valid _ _ _ _ _ _ Hm). cbn.
    split; [reflexivity | split; [| reflexivity]].
    intros r h' Heq. injection Heq as _ <-. reflexivity.
  - rewrite (run_method_invalid _ _ _ _ _ _ Hm). cbn.
    split; [reflexivity | split; [| discriminate]].
    intros r h' Heq. injection Heq as _ <-. reflexivity.
Qed.

Lemma run_method_restores_method_witness :
  let after :=
    @run_method unit no_service "/batches/1" "DELETE" PNone None None
      new_hook in
  fst after = Raise (ConnectionError "refused")
  /\ method (snd after) = "POST"
  /\ calls (snd after)
     = [Run "DELETE" "/batches/1" PNone None
          [("check_response", PBool false)]].
Proof.
  destruct (@run_method_restores_method unit no_service "/batches/1" "DELETE"
              PNone None None new_hook) as (Hm & _ & Hc).
  split; [reflexivity | split].
  - exact Hm.
  - apply Hc. reflexivity.
Defined.

(** C9 (as amended). When [extra_options] is empty and the method is one
    of the five [run_method] accepts, [run_method] sets [extra_options] to
    [{"check_response": False}] before the request, which carries them,
    and does not restore them: they are still set when the call is over,
    whether the request returned or raised, and a later call of
    [run_method] sends them as well. With any other method [run_method]
    raises before the assignment and [extra_options] stays as it was. *)
Theorem run_method_sets_extra_options {T : Type} `{HttpHook T}
  (endpoint m : string) (data : pyval) (headers retry_args : option pydict)
  (h : LivyHook T) :
  extra_options h = [] ->
  let h1 := snd (run_method endpoint m data headers retry_args h) in
  (existsb (String.eqb m) http_methods = true ->
   extra_options h1 = [("check_response", PBool false)]
   /\ (exists c, calls h1 = (calls h ++ [c])%list
                 /\ call_options c = Some [("check_response", PBool false)])
   /\ forall endpoint2 m2 data2 headers2 retry_args2,
        existsb (String.eqb m2) http_methods = true ->
        let h2 :=
          snd (run_method endpoint2 m2 data2 headers2 retry_args2 h1) in
        extra_options h2 = [("check_response", PBool false)]
        /\ exists c, calls h2 = (calls h1 ++ [c])%list
                     /\ call_options c
                        = Some [("check_response", PBool false)])
  /\ (existsb (String.eqb m) http_methods = false ->
      extra_options h1 = []).
Proof.
  intros Ho h1. split.
  - intros Hm. subst h1.
    rewrite (run_method_valid _ _ _ _ _ _ Hm). cbn [snd extra_options calls].
    rewrite Ho. cbn [effective_options].
    split; [reflexivity | split].
    + eexists. split; [reflexivity |].
      unfold run_method_call. rewrite Ho.
      destruct retry_args as [[| ra0 ra] |]; reflexivity.
    + intros endpoint2 m2 data2 headers2 retry_args2 Hm2.
      rewrite (run_method_valid _ _ _ _ _ _ Hm2).
      cbn [snd extra_options calls effective_options].
      split; [reflexivity |].
      eexists. split; [reflexivity |].
      unfold run_method_call.
      destruct retry_args2 as [[| ra0 ra] |]; reflexivity.
  - intros Hm. subst h1.
    rewrite (run_method_invalid _ _ _ _ _ _ Hm). exact Ho.
Qed.

Lemma run_method_sets_extra_options_witness :
  extra_options new_hook = []
  /\ extra_options
       (snd (@run_method unit no_service "/batches" "POST" PNone None None
               new_hook))
     = [("check_response", PBool false)].
Proof.
  split; [reflexivity |].
  apply (proj1 (@run_method_sets_extra_options unit no_service "/batches"
                  "POST" PNone None None new_hook eq_refl)).
  reflexivity.
Defined.

(** C9, as worded for every invocation, fails: with a method [run_method]
    refuses, [extra_options] is empty before the call and still empty
    after it. *)
Lemma run_method_patch_keeps_extra_options :
  ~ (forall m : string,
       extra_options new_hook = [] ->
       extra_options
         (snd (@run_method unit no_service "/batches" m PNone None None
                 new_hook))
       = [("check_response", PBool false)]).
Proof.
  intros Hall. specialize (Hall "PATCH" eq_refl). cbn in Hall. discriminate.
Qed.

(** ** Default headers *)

Lemma dict_get_set (k k' : string) (v : pyval) (d : pydict) :
  dict_get k (dict_set k' v d)
  = if String.eqb k k' then Some v else dict_get k d.
Proof.
  induction d as [| [k0 v0] d IH]; cbn.
  - reflexivity.
  - destruct (String.eqb_spec k' k0) as [-> | Hne]; cbn.
    + destruct (String.eqb k k0); reflexivity.
    + rewrite IH. destruct (String.eqb_spec k k0) as [-> | Hne'].
      * destruct (String.eqb_spec k0 k'); [congruence | reflexivity].
      * reflexivity.
Qed.





(** ** Size strings *)








Section SizeFacts.
Context `{PyRuntime}.


End SizeFacts.



(** ** Batch states *)




Section BatchStateFacts.
Context {T : Type} `{HttpHook T} `{PyRuntime}.


End BatchStateFacts.



(** ** The request body *)

Lemma put_if_falsy (v : pyval) (check : pyval -> result bool) (key : string)
  (value : pyval -> result pyval) (body : pydict) :
  truthy v = false -> put_if v check key value body = Ok body.
Proof. intros Hv. unfold put_if. now rewrite Hv. Qed.

(** A step of the builder changes the entry of its own key at most, and
    only for a truthy argument. *)
Lemma put_if_get (v : pyval) (check : pyval -> result bool) (key : string)
  (value : pyval -> result pyval) (body body' : pydict) (k : string) :
  put_if v check key value body = Ok body' ->
  dict_get k body' = dict_get k body \/ (k = key /\ truthy v = true).
Proof.
  unfold put_if. destruct (truthy v); [| intros [= <-]; now left].
  destruct (check v) as [[|] | e]; cbn; try discriminate.
  - destruct (value v) as [x | e]; cbn; [| discriminate].
    intros [= <-]. rewrite dict_get_set.
    destruct (String.eqb_spec k key); auto.
  - intros [= <-]. now left.
Qed.

Section BodyFacts.
Context `{PyRuntime}.

Lemma build_post_batch_body_only_file (p : batch_params) :
  only_file_set p -> build_post_batch_body p = Ok [("file", file p)].
Proof.
  unfold only_file_set, optional_fields. intros Hall.
  repeat (apply Forall_cons_iff in Hall as [? Hall]). cbn [snd] in *.
  unfold build_post_batch_body.
  repeat (rewrite put_if_falsy by assumption; cbn [bindR]).
  reflexivity.
Qed.

Ltac body_step E k :=
  destruct (put_if_get _ _ _ _ _ _ k E) as [-> | [Hk Ht]];
  [| first [discriminate Hk | congruence]].

Lemma build_post_batch_body_get (p : batch_params) (body : pydict) :
  build_post_batch_body p = Ok body ->
  dict_get "file" body = Some (file p)
  /\ Forall (fun kf => truthy (snd kf p) = false ->
                       dict_get (fst kf) body = None) optional_fields.
Proof.
  unfold build_post_batch_body. intros Hb.
  repeat match type of Hb with
         | bindR (put_if ?v ?c ?k ?f ?b) _ = _ =>
             let E := fresh "E" in
             destruct (put_if v c k f b) as [? | ?] eqn:E;
             [cbn [bindR] in Hb | discriminate Hb]
         end.
  injection Hb as <-.
  split.
  - repeat match goal with
           | E : put_if _ _ _ _ _ = Ok ?b |- dict_get ?k ?b = _ =>
               body_step E k; clear E
           end.
    reflexivity.
  - unfold optional_fields.
    repeat (apply Forall_cons; [cbn [fst snd]; intros Hf |]);
      [.. | apply Forall_nil];
      repeat match goal with
             | E : put_if _ _ _ _ _ = Ok ?b |- dict_get ?k ?b = _ =>
                 body_step E k; clear E
             end;
      reflexivity.
Qed.

End BodyFacts.

(** C2 (as amended). When only [file] is set, every optional argument
    being absent, empty or otherwise falsy, [build_post_batch_body]
    returns exactly [{"file": file}]. An empty [jars] list leaves the
    [jars] key out. For every input, the returned body has [file] under
    its key, whatever its value, and has no key of an optional argument
    whose value was falsy. *)
Theorem build_post_batch_body_spec `{PyRuntime} (p : batch_params) :
  (only_file_set p -> build_post_batch_body p = Ok [("file", file p)])
  /\ (forall body, build_post_batch_body p = Ok body ->
        (jars p = PList [] -> dict_get "jars" body = None)
        /\ dict_get "file" body = Some (file p)
        /\ (forall k f, In (k, f) optional_fields ->
                        truthy (f p) = false -> dict_get k body = None)).
Proof.
  split; [apply build_post_batch_body_only_file |].
  intros body Hb. apply build_post_batch_body_get in Hb as [Hfile Hopt].
  rewrite Forall_forall in Hopt.
  assert (Hkeys : forall k f, In (k, f) optional_fields ->
                              truthy (f p) = false -> dict_get k body = None).
  { intros k f Hin Hf. exact (Hopt (k, f) Hin Hf). }
  split; [| split; [exact Hfile | exact Hkeys]].
  intros Hj. apply (Hkeys "jars" jars).
  - unfold optional_fields. cbn. auto 10.
  - now rewrite Hj.
Qed.

Lemma build_post_batch_body_spec_witness :
  only_file_set (no_params (PStr "s3://bucket/job.py"))
  /\ @build_post_batch_body cpython (no_params (PStr "s3://bucket/job.py"))
     = Ok [("file", PStr "s3://bucket/job.py")].
Proof.
  assert (Hp : only_file_set (no_params (PStr "s3://bucket/job.py"))).
  { unfold only_file_set, optional_fields. repeat constructor. }
  split; [exact Hp |].
  exact (proj1 (@build_post_batch_body_spec cpython
                  (no_params (PStr "s3://bucket/job.py"))) Hp).
Defined.

(** C2, as worded for every key, fails: an empty [file] is falsy and its
    key is in the body all the same. *)
Lemma build_post_batch_body_keeps_empty_file :
  ~ (forall p body,
       @build_post_batch_body cpython p = Ok body ->
       forall k f, In (k, f) all_fields ->
                   truthy (f p) = false -> dict_get k body = None).
Proof.
  intros Hall.
  specialize (Hall (no_params (PStr "")) [("file", PStr "")] eq_refl
                "file" file (or_introl eq_refl) eq_refl).
  discriminate Hall.
Qed.

(** ** The log dump *)

Lemma effective_options_idem (o : pydict) :
  effective_options (effective_options o) = effective_options o.
Proof. destruct o; reflexivity. Qed.

Section DumpFacts.
Context {T : Type} `{HttpHook T} `{PyRuntime}.




End DumpFacts.






(** * Further properties *)

(** ** Lists of stringables *)

Lemma stringable_iff (v : pyval) :
  isinstance_str v || isinstance_int v || isinstance_float v = true
  <-> stringable v.
Proof.
  unfold stringable. split.
  - destruct v; cbn; try discriminate; eauto 6.
  - intros [(s & ->) | [(z & ->) | [(b & ->) | (f & ->)]]]; reflexivity.
Qed.

Lemma stringables_scan (l : list pyval) :
  existsb (fun val => negb (isinstance_str val || isinstance_int val
                            || isinstance_float val)) l = false
  <-> Forall stringable l.
Proof.
  induction l as [| v l IH]; cbn.
  - split; auto.
  - rewrite orb_false_iff, negb_false_iff, IH, stringable_iff. split.
    + intros [Hv Hl]. now constructor.
    + intros Hall. inversion Hall; subst. auto.
Qed.

(** X1. [_validate_list_of_stringables] returns [True] exactly for a list
    or a tuple whose elements are all [str], [int] (or [bool]) or [float];
    for anything else, [None] and a bare string included, it raises the
    [ValueError] "List of strings expected". The empty list passes. *)
Theorem validate_list_of_stringables_spec (vals : pyval) :
  (_validate_list_of_stringables vals = Ok true
   <-> (exists l, (vals = PList l \/ vals = PTuple l) /\ Forall stringable l))
  /\ (_validate_list_of_stringables vals = Ok true
      \/ _validate_list_of_stringables vals
         = Raise (ValueError "List of strings expected")).
Proof.
  assert (Hseq : forall l,
             (if existsb (fun val => negb (isinstance_str val
                                           || isinstance_int val
                                           || isinstance_float val)) l
              then Raise (ValueError "List of strings expected")
              else Ok true) = Ok true <-> Forall stringable l).
  { intros l. rewrite <- stringables_scan.
    destruct (existsb _ l); split; congruence. }
  split.
  - destruct vals as [| b | z | f | s | l | l | d]; cbn;
      try (split; [discriminate | intros (l & [E | E] & _); discriminate]).
    + rewrite Hseq. split.
      * intros Hall. exists l. auto.
      * intros (l' & [E | E] & Hall); [| discriminate].
        now injection E as ->.
    + rewrite Hseq. split.
      * intros Hall. exists l. auto.
      * intros (l' & [E | E] & Hall); [discriminate |].
        now injection E as ->.
  - destruct vals as [| b | z | f | s | l | l | d]; cbn; auto;
      destruct (existsb _ l); auto.
Qed.

Lemma validate_list_of_stringables_spec_witness :
  Forall stringable [PStr "--n"; PInt 3; PFloat three_and_a_half]
  /\ _validate_list_of_stringables
       (PTuple [PStr "--n"; PInt 3; PFloat three_and_a_half]) = Ok true
  /\ _validate_list_of_stringables (PStr "--n 3")
     = Raise (ValueError "List of strings expected").
Proof.
  assert (Hall : Forall stringable
                   [PStr "--n"; PInt 3; PFloat three_and_a_half]).
  { apply Forall_cons; [left; eauto |].
    apply Forall_cons; [right; left; eauto |].
    apply Forall_cons; [right; right; right; eauto | apply Forall_nil]. }
  split; [exact Hall | split].
  - apply (proj1 (validate_list_of_stringables_spec
                    (PTuple [PStr "--n"; PInt 3; PFloat three_and_a_half]))).
    eexists. split; [right; reflexivity | exact Hall].
  - destruct (proj2 (validate_list_of_stringables_spec (PStr "--n 3")))
      as [Hok | Hbad]; [discriminate Hok | exact Hbad].
Defined.

(** ** Batch states, both ways *)

(** X2. [BatchState(value)] and [.value] are inverse to each other: every
    state is got back from its string, a value that gives a state is that
    state's string, and no two states share a string. *)
Theorem BatchState_round_trip :
  (forall m, BatchState_of (PStr (BatchState_value m)) = Ok m)
  /\ (forall v m, BatchState_of v = Ok m -> v = PStr (BatchState_value m))
  /\ (forall m1 m2, BatchState_value m1 = BatchState_value m2 -> m1 = m2).
Proof.
  split; [| split].
  - intros m. destruct m; reflexivity.
  - intros v m Hv. destruct v as [| b | z | f | s | l | l | d];
      try discriminate Hv.
    unfold BatchState_of in Hv.
    destruct (find _ BatchState_members) as [m' |] eqn:Hfind;
      [| discriminate Hv].
    injection Hv as ->. apply find_some in Hfind as [_ Hm].
    apply String.eqb_eq in Hm. now rewrite Hm.
  - intros m1 m2 Hv. destruct m1, m2; try reflexivity; discriminate Hv.
Qed.

Lemma BatchState_round_trip_witness :
  BatchState_of (PStr "shutting_down") = Ok SHUTTING_DOWN
  /\ PStr "shutting_down" = PStr (BatchState_value SHUTTING_DOWN).
Proof.
  split; [reflexivity |].
  apply (proj1 (proj2 BatchState_round_trip)). reflexivity.
Defined.

(** ** The builder, in closed form *)


Lemma dict_set_fresh (k : string) (v : pyval) (d : pydict) :
  ~ In k (dict_keys d) -> dict_set k v d = (d ++ [(k, v)])%list.
Proof.
  induction d as [| [k0 v0] d IH]; cbn; intros Hk; [reflexivity |].
  destruct (String.eqb_spec k k0) as [-> | Hne].
  - exfalso. apply Hk. now left.
  - rewrite IH; [reflexivity |]. intros Hin. apply Hk. now right.
Qed.

Lemma run_steps_spec (p : batch_params) (steps : list body_step) :
  Forall step_sound steps ->
  NoDup (map bs_key steps) ->
  forall body,
    (forall s, In s steps -> ~ In (bs_key s) (dict_keys body)) ->
    run_steps steps p body
    = match steps_error steps p with
      | Some e => Raise e
      | None => Ok (body ++ flat_map (fun s => step_entry s p) steps)%list
      end.
Proof.
  induction steps as [| s steps IH]; intros Hsound Hnodup body Hfresh.
  - cbn. now rewrite app_nil_r.
  - inversion Hsound as [| ? ? Hs Hsound']; subst.
    inversion Hnodup as [| ? ? Hnotin Hnodup']; subst.
    cbn [run_steps steps_error flat_map]. unfold put_if, step_entry at 1.
    destruct (truthy (bs_field s p)).
    + destruct (Hs (bs_field s p)) as [[e He] | [Hc [x Hx]]].
      * rewrite He. reflexivity.
      * rewrite Hc, Hx. cbn [bindR].
        rewrite dict_set_fresh by (apply Hfresh; now left).
        rewrite (IH Hsound' Hnodup').
        -- destruct (steps_error steps p); [reflexivity |].
           now rewrite <- app_assoc.
        -- intros s' Hin. unfold dict_keys. rewrite map_app, in_app_iff.
           intros [Hk | [Hk | []]].
           ++ apply (Hfresh s'); [now right | exact Hk].
           ++ apply Hnotin. cbn in Hk. rewrite Hk. now apply in_map.
    + cbn [bindR app]. apply (IH Hsound' Hnodup').
      intros s' Hin. apply Hfresh. now right.
Qed.

Section BuilderFacts.
Context `{PyRuntime}.

Lemma validate_list_of_stringables_cases (v : pyval) :
  (exists e, _validate_list_of_stringables v = Raise e)
  \/ (_validate_list_of_stringables v = Ok true
      /\ str_each v
         = Ok (PList (map (fun val => PStr (py_str val)) (elements v)))).
Proof.
  destruct v as [| b | z | f | s | l | l | d]; cbn; eauto;
    destruct (existsb _ l); eauto.
Qed.

Lemma validate_size_format_cases (v : pyval) :
  (exists e, _validate_size_format v = Raise e)
  \/ _validate_size_format v = Ok true.
Proof.
  unfold _validate_size_format. destruct (_ && _); eauto.
Qed.

Lemma validate_extra_conf_cases (v : pyval) :
  (exists e, _validate_extra_conf v = Raise e)
  \/ _validate_extra_conf v = Ok true.
Proof.
  unfold _validate_extra_conf. destruct (truthy v); auto.
  destruct v; eauto. destruct (existsb _ d); eauto.
Qed.

Lemma body_steps_sound : Forall step_sound body_steps.
Proof.
  unfold body_steps.
  repeat (apply Forall_cons; [intros v; cbn [bs_check bs_value] |]);
    [.. | apply Forall_nil];
    try (right; split; [reflexivity | eexists; reflexivity]).
  - destruct (validate_list_of_stringables_cases v) as [He | [Hc Hv]];
      [now left | right; eauto].
  - destruct (validate_list_of_stringables_cases v) as [He | [Hc _]];
      [now left | right; unfold as_is; eauto].
  - destruct (validate_list_of_stringables_cases v) as [He | [Hc _]];
      [now left | right; unfold as_is; eauto].
  - destruct (validate_list_of_stringables_cases v) as [He | [Hc _]];
      [now left | right; unfold as_is; eauto].
  - destruct (validate_size_format_cases v) as [He | Hc];
      [now left | right; unfold as_is; eauto].
  - destruct (validate_size_format_cases v) as [He | Hc];
      [now left | right; unfold as_is; eauto].
  - destruct (validate_list_of_stringables_cases v) as [He | [Hc _]];
      [now left | right; unfold as_is; eauto].
  - destruct (validate_extra_conf_cases v) as [He | Hc];
      [now left | right; unfold as_is; eauto].
Qed.

(** The builder runs its table of steps from [{"file": file}]. *)
Lemma build_post_batch_body_steps (p : batch_params) :
  build_post_batch_body p
  = match steps_error body_steps p with
    | Some e => Raise e
    | None =>
        Ok (("file", file p) :: flat_map (fun s => step_entry s p) body_steps)
    end.
Proof.
  change (build_post_batch_body p)
    with (run_steps body_steps p [("file", file p)]).
  rewrite run_steps_spec.
  - reflexivity.
  - apply body_steps_sound.
  - unfold body_steps. cbn [map bs_key].
    repeat (apply NoDup_cons;
            [cbn [In]; intros Hin;
             repeat (destruct Hin as [Hin | Hin]; [discriminate Hin |]);
             exact Hin |]).
    apply NoDup_nil.
  - intros s Hin. unfold body_steps in Hin. cbn [In] in Hin.
    cbn [dict_keys map fst In].
    repeat (destruct Hin as [<- | Hin];
            [cbn [bs_key]; intros [Hk | []]; discriminate Hk |]).
    destruct Hin.
Qed.




End BuilderFacts.

Section BuilderProperties.
Context `{PyRuntime}.


End BuilderProperties.




(** A submission with every argument set, as a check of the closed form. *)
Example build_post_batch_body_full :
  @build_post_batch_body cpython full_params
  = Ok [("file", PStr "local:///app.jar");
        ("proxyUser", PStr "etl");
        ("className", PStr "org.example.Main");
        ("args", PList [PStr "--date"; PStr "20240101"; PStr "True"]);
        ("jars", PList [PStr "a.jar"]);
        ("pyFiles", PList [PStr "dep.zip"]);
        ("files", PList [PStr "conf.yaml"]);
        ("driverMemory", PStr "2g");
        ("driverCores", PInt 2);
        ("executorMemory", PStr "512MB");
        ("executorCores", PInt 4);
        ("numExecutors", PStr "10");
        ("archives", PList [PStr "env.tar.gz"]);
        ("queue", PStr "default");
        ("name", PStr "nightly");
        ("conf", PDict [("spark.ui.enabled", PBool false);
                        ("spark.app.tag", PStr "x")])].
Proof. vm_compute. reflexivity. Qed.

(** ** The operations, request by request *)

Section OperationFacts.
Context {T : Type} `{HttpHook T} `{PyRuntime}.


Lemma after_log_call (l : log_level) (m : pyval) (a : list pyval)
  (h : LivyHook T) :
  log_call l m a h
  = (Ok tt,
     with_log (log h ++ [{| lr_level := l; lr_msg := m; lr_args := a |}])%list
       h).
Proof. reflexivity. Qed.

End OperationFacts.

Section OperationProperties.
Context {T : Type} `{HttpHook T} `{PyRuntime}.



End OperationProperties.







(** X8. A session id that fails validation stops [get_batch],
    [get_batch_state], [delete_batch] and [get_batch_logs] with the error
    of the validation before anything else: no record is logged, no
    request is made and the hook is as it was. [dump_batch_logs] has
    logged its first record by then, and makes no request either. *)
Theorem invalid_session_id_stops {T : Type} `{HttpHook T} `{PyRuntime}
  (session_id : pyval) (e : exn) (h : LivyHook T) :
  _validate_session_id session_id = Raise e ->
  get_batch session_id h = (Raise e, h)
  /\ (forall retry_args,
        get_batch_state session_id retry_args h = (Raise e, h))
  /\ delete_batch session_id h = (Raise e, h)
  /\ (forall log_start_position log_batch_size,
        get_batch_logs session_id log_start_position log_batch_size h
        = (Raise e, h))
  /\ (forall fuel,
        dump_batch_logs (S fuel) session_id h
        = Some (Raise e,
                with_log (log h ++ [dump_header session_id])%list h)).
Proof.
  intros Hid. split; [| split; [| split; [| split]]].
  - unfold get_batch, bind at 1, lift at 1. now rewrite Hid.
  - intros retry_args. unfold get_batch_state, bind at 1, lift at 1.
    now rewrite Hid.
  - unfold delete_batch, bind at 1, lift at 1. now rewrite Hid.
  - intros from size. unfold get_batch_logs, bind at 1, lift at 1.
    now rewrite Hid.
  - intros fuel. unfold dump_batch_logs. rewrite after_log_call.
    cbn [dump_loop py_int_le]. change (0 <=? 0) with true. cbv iota.
    unfold dump_page, bind at 1, get_batch_logs, bind at 1, lift at 1.
    now rewrite Hid.
Qed.

Lemma invalid_session_id_stops_witness :
  @_validate_session_id cpython (PStr "batch-1")
  = Raise (TypeError "'session_id' must be an integer")
  /\ @delete_batch unit no_service cpython (PStr "batch-1") new_hook
     = (Raise (TypeError "'session_id' must be an integer"), new_hook).
Proof.
  split; [reflexivity |].
  apply (@invalid_session_id_stops unit no_service cpython (PStr "batch-1")
           (TypeError "'session_id' must be an integer") new_hook eq_refl).
Defined.

(** X10. [run_method] by cases. A method other than the five, which are
    compared as written, so that "get" is none of them, raises a
    [ValueError] and leaves the hook as it was, without a call. Otherwise
    one call is made into the parent class: [run_with_advanced_retry]
    when [retry_args] is a non-empty dict, [run] when it is [None] or
    empty. What the call returns or raises is what [run_method] returns
    or raises, and the hook's headers and log are untouched. *)
Theorem run_method_by_cases {T : Type} `{HttpHook T}
  (endpoint m : string) (data : pyval) (headers : option pydict)
  (h : LivyHook T) :
  let opts := effective_options (extra_options h) in
  (existsb (String.eqb m) http_methods = false ->
   forall retry_args,
     run_method endpoint m data headers retry_args h
     = (Raise (ValueError ("Invalid http method '" ++ m ++ "'")), h))
  /\ (existsb (String.eqb m) http_methods = true ->
      (forall retry_args, retry_args = None \/ retry_args = Some [] ->
         let answer := run m endpoint data headers opts (http h) in
         run_method endpoint m data headers retry_args h
         = (fst answer,
            after_call h [] (Run m endpoint data headers opts) (snd answer)))
      /\ (forall kv ra,
            let answer :=
              run_with_advanced_retry (kv :: ra) m endpoint data headers
                opts (http h) in
            run_method endpoint m data headers (Some (kv :: ra)) h
            = (fst answer,
               after_call h []
                 (RunWithAdvancedRetry (kv :: ra) m endpoint data headers
                    opts) (snd answer))))
  /\ existsb (String.eqb "get") http_methods = false.
Proof.
  intros opts. split; [| split; [| reflexivity]].
  - intros Hm retry_args. now apply run_method_invalid.
  - intros Hm. split.
    + intros retry_args Hra answer.
      rewrite (run_method_valid _ _ _ _ _ _ Hm).
      unfold after_call. rewrite app_nil_r.
      destruct Hra as [-> | ->]; reflexivity.
    + intros kv ra answer. rewrite (run_method_valid _ _ _ _ _ _ Hm).
      unfold after_call. now rewrite app_nil_r.
Qed.

Lemma run_method_by_cases_witness :
  existsb (String.eqb "get") http_methods = false
  /\ @run_method unit no_service "/batches" "get" PNone None None new_hook
     = (Raise (ValueError "Invalid http method 'get'"), new_hook).
Proof.
  split; [reflexivity |].
  apply (proj1 (@run_method_by_cases unit no_service "/batches" "get" PNone
                  None new_hook) eq_refl None).
Defined.



(** ** What no operation touches *)

Lemma extends_refl {T} (h : LivyHook T) : extends h h.
Proof.
  unfold extends.
  split; [reflexivity | split; [reflexivity | split; [| split]]].
  - exists []. now rewrite app_nil_r.
  - exists []. now rewrite app_nil_r.
  - now left.
Qed.

Lemma extends_trans {T} (h1 h2 h3 : LivyHook T) :
  extends h1 h2 -> extends h2 h3 -> extends h1 h3.
Proof.
  intros (Hm & Hh & [l Hl] & [c Hc] & Ho) (Hm' & Hh' & [l' Hl'] & [c' Hc'] & Ho').
  split; [congruence | split; [congruence | split; [| split]]].
  - exists (l ++ l')%list. now rewrite Hl', Hl, app_assoc.
  - exists (c ++ c')%list. now rewrite Hc', Hc, app_assoc.
  - destruct Ho' as [-> | ->]; [exact Ho |].
    right. destruct Ho as [-> | ->]; [reflexivity |].
    apply effective_options_idem.
Qed.

Ltac extends_by_parts :=
  unfold extends; cbn [method extra_headers log calls extra_options];
  split; [reflexivity | split; [reflexivity | split; [| split]]];
  [ first [exists []; now rewrite app_nil_r | eexists; reflexivity]
  | first [exists []; now rewrite app_nil_r | eexists; reflexivity]
  | first [now left | now right] ].

Section Preservation.
Context {T : Type} `{HttpHook T} `{PyRuntime}.

Lemma preserves_lift {A} (r : result A) : preserves (@lift T A r).
Proof. intros h. apply extends_refl. Qed.

Lemma preserves_ret {A} (a : A) : preserves (@ret T A a).
Proof. intros h. apply extends_refl. Qed.

Lemma preserves_raise {A} (e : exn) : preserves (@raise T A e).
Proof. intros h. apply extends_refl. Qed.

Lemma preserves_bind {A B} (m : M T A) (f : A -> M T B) :
  preserves m -> (forall a, preserves (f a)) -> preserves (bind m f).
Proof.
  intros Hm Hf h. unfold bind. specialize (Hm h).
  destruct (m h) as [[a | e] h']; cbn [snd] in *.
  - eapply extends_trans; [exact Hm | apply Hf].
  - exact Hm.
Qed.

Lemma preserves_log_call (l : log_level) (m : pyval) (a : list pyval) :
  preserves (@log_call T l m a).
Proof.
  intros h. unfold log_call, with_log. cbn [snd]. extends_by_parts.
Qed.

Lemma preserves_get_extra_headers : preserves (@get_extra_headers T).
Proof. intros h. apply extends_refl. Qed.

Lemma preserves_run_method (endpoint m : string) (data : pyval)
  (headers retry_args : option pydict) :
  preserves (run_method endpoint m data headers retry_args).
Proof.
  intros h. destruct (existsb (String.eqb m) http_methods) eqn:Hm.
  - rewrite (run_method_valid _ _ _ _ _ _ Hm). cbn [snd]. extends_by_parts.
  - rewrite (run_method_invalid _ _ _ _ _ _ Hm). apply extends_refl.
Qed.

Lemma preserves_get_conn (headers : option pydict) :
  preserves (get_conn headers).
Proof.
  intros h. unfold get_conn, super_conn.
  destruct (super_get_conn _ (http h)). unfold with_http. cbn [snd].
  extends_by_parts.
Qed.

Lemma preserves_raise_for_status (r : Response) (session_id : pyval)
  (message : string) :
  preserves (raise_for_status (T := T) r session_id message).
Proof.
  unfold raise_for_status. destruct (is_http_error r).
  - apply preserves_bind; [apply preserves_log_call |].
    intros _. apply preserves_raise.
  - apply preserves_ret.
Qed.

Lemma preserves_json (r : Response) : preserves (json (T := T) r).
Proof.
  unfold json. destruct (json_body r);
    [apply preserves_ret | apply preserves_raise].
Qed.

Lemma preserves_log_lines_info (lines : list pyval) :
  preserves (log_lines_info (T := T) lines).
Proof.
  induction lines as [| l lines IH]; cbn [log_lines_info].
  - apply preserves_ret.
  - apply preserves_bind; [apply preserves_log_call | intros _; exact IH].
Qed.

Ltac preserve :=
  repeat first
    [ apply preserves_lift | apply preserves_ret | apply preserves_raise
    | apply preserves_log_call | apply preserves_get_extra_headers
    | apply preserves_run_method | apply preserves_get_conn
    | apply preserves_raise_for_status | apply preserves_json
    | apply preserves_log_lines_info
    | apply preserves_bind; [| intros ?] ].

Lemma preserves_get_batch (session_id : pyval) :
  preserves (get_batch session_id).
Proof. unfold get_batch. preserve. Qed.

Lemma preserves_delete_batch (session_id : pyval) :
  preserves (delete_batch session_id).
Proof. unfold delete_batch. preserve. Qed.

Lemma preserves_get_batch_logs (session_id from size : pyval) :
  preserves (get_batch_logs session_id from size).
Proof. unfold get_batch_logs. preserve. Qed.

Lemma preserves_get_batch_state (session_id : pyval)
  (retry_args : option pydict) :
  preserves (get_batch_state session_id retry_args).
Proof.
  unfold get_batch_state. preserve.
  match goal with |- preserves (if ?b then _ else _) => destruct b end;
    preserve.
Qed.

Lemma preserves_dump_page (session_id : pyval) (off : Z) :
  preserves (dump_page session_id off).
Proof.
  unfold dump_page. preserve.
Qed.

Lemma dump_loop_extends (session_id : pyval) (fuel : nat) :
  forall off total h r h',
    dump_loop fuel session_id off total h = Some (r, h') -> extends h h'.
Proof.
  induction fuel as [| fuel IH]; intros off total h r h'; cbn [dump_loop];
    [discriminate |].
  destruct (py_int_le off total) as [[|] | e].
  - pose proof (preserves_dump_page session_id off h) as Hpage.
    destruct (dump_page session_id off h) as [[t | e] h1]; cbn [snd] in Hpage.
    + intros Hloop. eapply extends_trans; [exact Hpage | eapply IH; eauto].
    + intros [= <- <-]. exact Hpage.
  - intros [= <- <-]. apply extends_refl.
  - intros [= <- <-]. apply extends_refl.
Qed.

Context `{HttpBase T} `{PyJson}.

Lemma preserves_get_base_url : preserves get_base_url.
Proof. intros h. apply extends_refl. Qed.

Lemma preserves_post_batch (p : batch_params) : preserves (post_batch p).
Proof.
  unfold post_batch.
  repeat first
    [ progress preserve
    | apply preserves_get_base_url
    | match goal with
      | |- preserves (match ?u with _ => _ end) => destruct u
      end ].
Qed.

End Preservation.

(** X11. No operation of the hook changes [method] or the hook's headers
    for good, takes a record out of the log or forgets a call it made,
    and the only change to [extra_options] is the one from empty to
    [{"check_response": False}]: this holds for [run_method], [get_conn],
    [get_batch], [get_batch_state], [delete_batch], [get_batch_logs],
    [post_batch] and [dump_batch_logs], whether they return or raise. *)
Theorem operations_extend_the_hook {T : Type} `{HttpHook T} `{PyRuntime}
  `{HttpBase T} `{PyJson} (h : LivyHook T) :
  (forall endpoint m data headers retry_args,
     extends h (snd (run_method endpoint m data headers retry_args h)))
  /\ (forall headers, extends h (snd (get_conn headers h)))
  /\ (forall session_id, extends h (snd (get_batch session_id h)))
  /\ (forall session_id retry_args,
        extends h (snd (get_batch_state session_id retry_args h)))
  /\ (forall session_id, extends h (snd (delete_batch session_id h)))
  /\ (forall session_id from size,
        extends h (snd (get_batch_logs session_id from size h)))
  /\ (forall p, extends h (snd (post_batch p h)))
  /\ (forall fuel session_id r h',
        dump_batch_logs fuel session_id h = Some (r, h') -> extends h h').
Proof.
  split; [| split; [| split; [| split; [| split; [| split; [| split]]]]]].
  - intros. apply preserves_run_method.
  - intros. apply preserves_get_conn.
  - intros. apply preserves_get_batch.
  - intros. apply preserves_get_batch_state.
  - intros. apply preserves_delete_batch.
  - intros. apply preserves_get_batch_logs.
  - intros. apply preserves_post_batch.
  - intros fuel session_id r h' Hdump. unfold dump_batch_logs in Hdump.
    rewrite after_log_call in Hdump.
    eapply extends_trans; [| eapply dump_loop_extends; exact Hdump].
    exact (preserves_log_call INFO _ _ h).
Qed.

Lemma operations_extend_the_hook_witness :
  exists h',
    @dump_batch_logs unit (log_service (numbered_lines 120)) cpython 5
      (PInt 1) new_hook = Some (Ok tt, h')
    /\ extends new_hook h'.
Proof.
  eexists. split; [vm_compute; reflexivity |].
  eapply (proj2 (proj2 (proj2 (proj2 (proj2 (proj2 (proj2
            (@operations_extend_the_hook unit (log_service (numbered_lines 120))
               cpython known_url opaque_json new_hook)))))))
            5%nat (PInt 1) (Ok tt)).
  vm_compute. reflexivity.
Defined.

(** ** Submitting a batch *)





(** ** The log dump, turn by turn *)

Section DumpTurns.
Context {T : Type} `{HttpHook T} `{PyRuntime}.



End DumpTurns.



Section FailingTurns.
Context {T : Type} `{HttpHook T} `{PyRuntime}.


End FailingTurns.



(** ** The log dump over a whole log *)








Section NeverEnding.
Context {T : Type} `{HttpHook T} `{PyRuntime}.


End NeverEnding.



(** ** The keys of a body *)

Lemma step_entries_keys (p : batch_params) (steps : list body_step) :
  dict_keys (flat_map (fun s => step_entry s p) steps)
  = map bs_key
      (filter (fun s => match step_entry s p with [] => false | _ => true end)
         steps).
Proof.
  induction steps as [| s steps IH]; [reflexivity |].
  cbn [flat_map filter]. unfold dict_keys in *. rewrite map_app, IH.
  unfold step_entry at 1 3.
  destruct (truthy (bs_field s p)); [| reflexivity].
  destruct (bs_value s (bs_field s p)); reflexivity.
Qed.

Lemma NoDup_map_filter {A B} (f : A -> B) (keep : A -> bool) (l : list A) :
  NoDup (map f l) -> NoDup (map f (filter keep l)).
Proof.
  induction l as [| x l IH]; cbn; [auto |].
  intros Hnd. inversion Hnd as [| ? ? Hnotin Hnd']; subst.
  destruct (keep x); cbn; [| auto].
  constructor; [| auto].
  intros Hin. apply Hnotin. apply in_map_iff in Hin as (y & Hy & Hin).
  apply filter_In in Hin as [Hin _]. apply in_map_iff. eauto.
Qed.

(** X18. A body [build_post_batch_body] returns is a well-formed JSON
    object: no key occurs twice, its first key is [file], and every key
    is one of the sixteen names of the builder. *)
Theorem build_post_batch_body_keys `{PyRuntime} (p : batch_params)
  (body : pydict) :
  build_post_batch_body p = Ok body ->
  wf_dict body
  /\ (exists rest, body = ("file", file p) :: rest)
  /\ (forall k, In k (dict_keys body) -> In k body_keys).
Proof.
  rewrite build_post_batch_body_steps.
  destruct (steps_error body_steps p); [discriminate |].
  intros [= <-].
  assert (Hkeys : dict_keys (("file", file p)
                             :: flat_map (fun s => step_entry s p) body_steps)
                  = map bs_key
                      ({| bs_field := file; bs_check := unchecked;
                          bs_key := "file"; bs_value := as_is |}
                       :: filter (fun s => match step_entry s p with
                                           | [] => false
                                           | _ => true
                                           end) body_steps)).
  { cbn [dict_keys map fst bs_key].
    change (map fst (flat_map (fun s => step_entry s p) body_steps))
      with (dict_keys (flat_map (fun s => step_entry s p) body_steps)).
    now rewrite step_entries_keys. }
  split; [| split].
  - unfold wf_dict.
    match goal with
    | |- NoDup ?ks =>
        change ks
          with (dict_keys
                  (("file", file p)
                   :: flat_map (fun s => step_entry s p) body_steps))
    end.
    rewrite Hkeys.
    apply (NoDup_map_filter bs_key
             (fun s => match bs_key s with
                       | "file" => true
                       | _ => match step_entry s p with
                              | [] => false
                              | _ => true
                              end
                       end)
             ({| bs_field := file; bs_check := unchecked;
                 bs_key := "file"; bs_value := as_is |} :: body_steps)).
    unfold body_steps. cbn [map bs_key].
    repeat (apply NoDup_cons;
            [cbn [In]; intros Hin;
             repeat (destruct Hin as [Hin | Hin]; [discriminate Hin |]);
             exact Hin |]).
    apply NoDup_nil.
  - eexists. reflexivity.
  - intros k.
    match goal with
    | |- In k ?ks -> _ =>
        change ks
          with (dict_keys
                  (("file", file p)
                   :: flat_map (fun s => step_entry s p) body_steps))
    end.
    rewrite Hkeys. cbn [map bs_key In].
    intros [<- | Hin]; [now left |].
    apply in_map_iff in Hin as (s & <- & Hin).
    apply filter_In in Hin as [Hin _].
    unfold body_steps in Hin. cbn [In] in Hin. unfold body_keys.
    repeat (destruct Hin as [<- | Hin]; [cbn; tauto |]).
    destruct Hin.
Qed.

Lemma build_post_batch_body_keys_witness :
  exists body,
    @build_post_batch_body cpython full_params = Ok body
    /\ wf_dict body
    /\ dict_keys body = body_keys.
Proof.
  eexists. split; [vm_compute; reflexivity |].
  split; [| reflexivity].
  eapply (@build_post_batch_body_keys cpython full_params).
  vm_compute. reflexivity.
Defined.
